(** * educational_platform: the front-end pages and the build configuration

    A shallow embedding of the three source files of the repository:

    - [frontend/src/app/sigunp.tsx]: the signup form ([Module Signup]);
    - [frontend/src/app/markdown-editor-test/page.tsx]: the markdown and
      LaTeX editor test page ([Module MarkdownEditor]);
    - [next.config.js]: the options handed to next-pwa ([Module NextConfig]).

    A React function component is a function from its [useState] cells to
    the element tree it returns; a call of a state setter is an [Action]
    that produces the cells of the next render.  Event handlers that touch
    the browser ([preventDefault], [alert]) run in a small monad that
    records what the browser observes and has an outcome for a thrown
    exception; none of the operations the sources call produces it.

    Strings are [String.string]: the bytes of the UTF-8 source text. *)

From Stdlib Require Import String Ascii List Bool ZArith.
Import ListNotations.
Local Open Scope string_scope.
Set Warnings "-register-all".

(** ** JavaScript values and operators used by the sources *)

Module JS.

(** The two kinds of value that reach the code: a string, or [undefined]
    (an absent [process.env] entry, an [onChange] called without a value). *)
Inductive value : Type :=
| Undefined
| Str (s : string).

(** ToBoolean: [undefined] and the empty string are falsy. *)
Definition truthy (v : value) : bool :=
  match v with
  | Undefined => false
  | Str EmptyString => false
  | Str (String _ _) => true
  end.

(** [a || b] *)
Definition or (a b : value) : value :=
  if truthy a then a else b.

(** [a === b] *)
Definition strict_eq (a b : value) : bool :=
  match a, b with
  | Undefined, Undefined => true
  | Str x, Str y => String.eqb x y
  | _, _ => false
  end.

Definition is_string (v : value) : bool :=
  match v with
  | Str _ => true
  | Undefined => false
  end.

(** [String.prototype.startsWith] and [String.prototype.includes]. *)
Fixpoint startsWith (s sub : string) {struct sub} : bool :=
  match sub, s with
  | EmptyString, _ => true
  | String c sub', String d s' => Ascii.eqb c d && startsWith s' sub'
  | String _ _, EmptyString => false
  end.

Fixpoint includes (s sub : string) : bool :=
  startsWith s sub ||
  match s with
  | EmptyString => false
  | String _ s' => includes s' sub
  end.

End JS.

(** ** The browser as seen by an event handler *)

Module Browser.

(** What a handler can make the browser do, in the order it happens. *)
Inductive effect : Type :=
| PreventDefault
| Alert (message : string).

Definition trace := list effect.

Inductive outcome (A : Type) : Type :=
| Returned (a : A)
| Threw (exn : string).
Arguments Returned {A} a.
Arguments Threw {A} exn.

(** A handler computation: it extends the trace and returns or throws. *)
Definition M (A : Type) : Type := trace -> outcome A * trace.

Definition ret {A} (a : A) : M A := fun t => (Returned a, t).

Definition bind {A B} (m : M A) (k : A -> M B) : M B :=
  fun t =>
    match m t with
    | (Returned a, t') => k a t'
    | (Threw e, t') => (Threw e, t')
    end.

Definition emit (e : effect) : M unit := fun t => (Returned tt, (t ++ [e])%list).

Notation "m ;; k" := (bind m (fun _ => k))
  (at level 61, right associativity).

(** The submit event that React hands to [onSubmit]. *)
Inductive FormEvent : Type := SubmitEvent.

Definition preventDefault (e : FormEvent) : M unit := emit PreventDefault.

(** [window.alert(message)] *)
Definition alert (message : string) : M unit := emit (Alert message).

Definition is_alert (e : effect) : bool :=
  match e with Alert _ => true | PreventDefault => false end.

Definition is_preventDefault (e : effect) : bool :=
  match e with PreventDefault => true | Alert _ => false end.

(** Whether [preventDefault] was called on the event: its
    [defaultPrevented] flag once the handler has run. *)
Definition defaultPrevented (t : trace) : bool := existsb is_preventDefault t.

(** The messages of the alerts shown, oldest first. *)
Fixpoint alerts (t : trace) : list string :=
  match t with
  | [] => []
  | Alert m :: t' => m :: alerts t'
  | PreventDefault :: t' => alerts t'
  end.

End Browser.

(** ** frontend/src/app/sigunp.tsx *)

Module Signup.
Import Browser.

(** The three [useState] cells of [SignupPage]. *)
Record State : Type := {
  name : string;
  email : string;
  password : string
}.

(** [useState('')] three times. *)
Definition initial : State := {| name := ""; email := ""; password := "" |}.

(** A call of one of the setters returned by [useState]. *)
Inductive Action : Type :=
| setName (v : string)
| setEmail (v : string)
| setPassword (v : string).

(** The cells of the render that follows a setter call. *)
Definition reduce (st : State) (a : Action) : State :=
  match a with
  | setName v => {| name := v; email := email st; password := password st |}
  | setEmail v => {| name := name st; email := v; password := password st |}
  | setPassword v => {| name := name st; email := email st; password := v |}
  end.

(** The change event of an input: [e.target.value]. *)
Record ChangeEvent : Type := { target_value : string }.

Record InputProps : Type := {
  className : string;
  type : string;
  placeholder : string;
  value : string;
  onChange : ChangeEvent -> Action;
  required : bool
}.

Inductive Element : Type :=
| div (cls : string) (children : list Element)
| form (onSubmit : FormEvent -> M unit) (cls : string) (children : list Element)
| h1 (cls : string) (text : string)
| input (props : InputProps)
| button (ty : string) (cls : string) (text : string).

(** The template literal of the alert. *)
Definition message (st : State) : string :=
  "تم التسجيل: " ++ name st ++ ", " ++ email st.

Definition handleSignup (st : State) (e : FormEvent) : M unit :=
  preventDefault e ;;
  alert (message st).

Definition SignupPage (st : State) : Element :=
  div "min-h-screen flex items-center justify-center bg-gray-50" [
    form (handleSignup st) "bg-white p-6 rounded-xl shadow-md w-full max-w-md" [
      h1 "text-2xl font-bold mb-4 text-center" "إنشاء حساب";
      input {|
        className := "w-full p-2 mb-3 border rounded";
        type := "text";
        placeholder := "الاسم الكامل";
        value := name st;
        onChange := fun e => setName (target_value e);
        required := true
      |};
      input {|
        className := "w-full p-2 mb-3 border rounded";
        type := "email";
        placeholder := "البريد الإلكتروني";
        value := email st;
        onChange := fun e => setEmail (target_value e);
        required := true
      |};
      input {|
        className := "w-full p-2 mb-4 border rounded";
        type := "password";
        placeholder := "كلمة المرور";
        value := password st;
        onChange := fun e => setPassword (target_value e);
        required := true
      |};
      button "submit" "bg-green-600 text-white w-full py-2 rounded hover:bg-green-700"
        "تسجيل"
    ]
  ].

(** *** Reading the rendered tree, as a user or a test does *)

(** The inputs of a tree, in document order. *)
Fixpoint inputs (el : Element) : list InputProps :=
  match el with
  | div _ children => flat_map inputs children
  | form _ _ children => flat_map inputs children
  | input props => [props]
  | h1 _ _ => []
  | button _ _ _ => []
  end.

(** The [onSubmit] handlers of the forms of a tree, in document order. *)
Fixpoint submitHandlers (el : Element) : list (FormEvent -> M unit) :=
  match el with
  | div _ children => flat_map submitHandlers children
  | form h _ children => h :: flat_map submitHandlers children
  | _ => []
  end.

(** The three fields, by the [type] attribute of their input. *)
Inductive Field : Type := NameField | EmailField | PasswordField.

Definition fieldType (f : Field) : string :=
  match f with
  | NameField => "text"
  | EmailField => "email"
  | PasswordField => "password"
  end.

Definition cell (f : Field) (st : State) : string :=
  match f with
  | NameField => name st
  | EmailField => email st
  | PasswordField => password st
  end.

(** [querySelector('input[type=...]')]. *)
Definition findInput (f : Field) (el : Element) : option InputProps :=
  find (fun p => String.eqb (type p) (fieldType f)) (inputs el).

(** Fire the change event of field [f] carrying [v]: run the [onChange]
    of its input and render again. *)
Definition fireChange (f : Field) (v : string) (st : State) : State :=
  match findInput f (SignupPage st) with
  | Some p => reduce st (onChange p {| target_value := v |})
  | None => st
  end.

(** Fire the submit event [e] on the form, starting from trace [t]. *)
Definition fireSubmit (st : State) (e : FormEvent) (t : trace) : outcome unit * trace :=
  match submitHandlers (SignupPage st) with
  | h :: _ => h e t
  | [] => (Returned tt, t)
  end.

(** *** A session on the page *)

Definition Field_eqb (f g : Field) : bool :=
  match f, g with
  | NameField, NameField => true
  | EmailField, EmailField => true
  | PasswordField, PasswordField => true
  | _, _ => false
  end.

(** What the user does: type into a field, or submit the form. *)
Inductive UserEvent : Type :=
| Typed (f : Field) (v : string)
| Submitted (e : FormEvent).

(** One user event, on the cells of the current render and the trace of
    the browser: a change event re-renders with the new cells, a submit
    runs the [onSubmit] of the current render. *)
Definition step (ev : UserEvent) (s : State * trace) : State * trace :=
  match ev with
  | Typed f v => (fireChange f v (fst s), snd s)
  | Submitted e => (fst s, snd (fireSubmit (fst s) e (snd s)))
  end.

(** A sequence of user events, oldest first. *)
Definition session (evs : list UserEvent) (s : State * trace) : State * trace :=
  fold_left (fun s ev => step ev s) evs s.

(** The string typed last into field [f] during [evs]; [d] when nothing
    was typed into it. *)
Fixpoint lastTyped (f : Field) (evs : list UserEvent) (d : string) : string :=
  match evs with
  | [] => d
  | Typed g v :: evs' => lastTyped f evs' (if Field_eqb g f then v else d)
  | Submitted _ :: evs' => lastTyped f evs' d
  end.

(** The same event with what was typed into the password field blanked. *)
Definition erasePassword (ev : UserEvent) : UserEvent :=
  match ev with
  | Typed PasswordField _ => Typed PasswordField ""
  | _ => ev
  end.

(** The number of submits among [evs]. *)
Fixpoint submits (evs : list UserEvent) : nat :=
  match evs with
  | [] => 0
  | Typed _ _ :: evs' => submits evs'
  | Submitted _ :: evs' => S (submits evs')
  end.

End Signup.

(** ** frontend/src/app/markdown-editor-test/page.tsx *)

Module MarkdownEditor.

Definition BS : string := String "008"%char "".
Definition LF : string := String "010"%char "".
Definition FF : string := String "012"%char "".
Definition CR : string := String "013"%char "".

(** The text between the backquotes of the template literal handed to
    [useState], as it stands in the source file. *)
Definition initialValueRaw : string :=
"**Hello world!!!**

Let's test LaTeX:

Inline math: $E = mc^2$

Display math (Pandoc style):

$$
\int_0^\infty x^2 e^{-x} dx = 2
$$

Display math (GitLab/GitHub style):

\
\
\
math
\frac{d}{dx} \left( \int_0^x f(u) du \right) = f(x)
\
\
\

Another inline example: $\alpha + \beta = \gamma$.

More complex display equation:

$$
\sum_{i=1}^{n} i = \frac{n(n+1)}{2}
$$
".

(** The string an untagged template literal evaluates to (its cooked
    value): a backslash before a line end is a line continuation, the
    single-character escapes stand for their control characters, any other
    escaped character stands for itself.  Substitutions and the hexadecimal,
    unicode and digit escapes do not occur in the source and give [None]. *)
Fixpoint cook (raw : string) : option string :=
  match raw with
  | EmptyString => Some EmptyString
  | String "\" EmptyString => None
  | String "\" (String c rest) =>
      match cook rest with
      | None => None
      | Some s =>
          match c with
          | "010"%char => Some s
          | "b"%char => Some (BS ++ s)
          | "f"%char => Some (FF ++ s)
          | "n"%char => Some (LF ++ s)
          | "r"%char => Some (CR ++ s)
          | "t"%char => Some (String "009"%char s)
          | "v"%char => Some (String "011"%char s)
          | "x"%char | "u"%char
          | "0"%char | "1"%char | "2"%char | "3"%char | "4"%char
          | "5"%char | "6"%char | "7"%char | "8"%char | "9"%char => None
          | _ => Some (String c s)
          end
      end
  | String "$" (String "{" _) => None
  | String "`" _ => None
  | String c rest =>
      match cook rest with
      | None => None
      | Some s => Some (String c s)
      end
  end.

(** The initial content of the editor: the value of the template literal.
    The backslashes of the LaTeX commands are consumed as escapes. *)
Definition initialValue : string :=
"**Hello world!!!**

Let's test LaTeX:

Inline math: $E = mc^2$

Display math (Pandoc style):

$$
int_0^infty x^2 e^{-x} dx = 2
$$

Display math (GitLab/GitHub style):

math
" ++ FF ++ "rac{d}{dx} left( int_0^x f(u) du " ++ CR ++ "ight) = f(x)

Another inline example: $alpha + " ++ BS ++ "eta = gamma$.

More complex display equation:

$$
sum_{i=1}^{n} i = " ++ FF ++ "rac{n(n+1)}{2}
$$
".

(** The single [useState] cell of [MarkdownEditorTestPage]. *)
Record State : Type := { value : JS.value }.

Definition initial : State := {| value := JS.Str initialValue |}.

(** A call of the setter returned by [useState]. *)
Inductive Action : Type :=
| setValue (v : JS.value).

Definition reduce (st : State) (a : Action) : State :=
  match a with
  | setValue v => {| value := v |}
  end.

(** The unified plugins imported by the page. *)
Inductive Plugin : Type := remarkMath | rehypeKatex.

(** The plugin lists given to a markdown preview. *)
Record PreviewOptions : Type := {
  remarkPlugins : list Plugin;
  rehypePlugins : list Plugin
}.

(** The props of [<MDEditor>]; [onChange] receives the new text, or
    [undefined]. *)
Record MDEditorProps : Type := {
  editorValue : JS.value;
  onChange : JS.value -> Action;
  height : Z;
  previewOptions : PreviewOptions
}.

(** The props of [<MDEditor.Markdown>]: the source and its plugin lists. *)
Record MarkdownProps : Type := {
  source : JS.value;
  markdownOptions : PreviewOptions
}.

Inductive Element : Type :=
| div (cls : option string) (dataColorMode : option string) (children : list Element)
| h1 (cls : string) (text : string)
| h2 (cls : string) (text : string)
| MDEditor (props : MDEditorProps)
| MDEditor_Markdown (props : MarkdownProps).

Definition MarkdownEditorTestPage (st : State) : Element :=
  div (Some "container mx-auto p-4") None [
    h1 "text-2xl font-bold mb-4" "Markdown Editor with LaTeX Test";
    div None (Some "light") [
      MDEditor {|
        editorValue := value st;
        onChange := fun val => setValue (JS.or val (JS.Str ""));
        height := 500;
        previewOptions := {|
          remarkPlugins := [remarkMath];
          rehypePlugins := [rehypeKatex]
        |}
      |}
    ];
    h2 "text-xl font-semibold mt-6 mb-2"
       "Live Preview (within editor is already using KaTeX if configured)";
    h2 "text-xl font-semibold mt-6 mb-2" "Standalone MDEditor.Markdown Preview:";
    div (Some "markdown-body prose lg:prose-xl p-4 border rounded") (Some "light") [
      MDEditor_Markdown {|
        source := value st;
        markdownOptions := {|
          remarkPlugins := [remarkMath];
          rehypePlugins := [rehypeKatex]
        |}
      |}
    ]
  ].

(** *** Reading the rendered tree *)

(** The editors of a tree, in document order. *)
Fixpoint editors (el : Element) : list MDEditorProps :=
  match el with
  | div _ _ children => flat_map editors children
  | MDEditor props => [props]
  | _ => []
  end.



(** The editor calls [onChange] with [val]; the page renders again. *)
Definition fireChange (val : JS.value) (st : State) : State :=
  match editors (MarkdownEditorTestPage st) with
  | p :: _ => reduce st (onChange p val)
  | [] => st
  end.

(** A sequence of change events, oldest first. *)
Definition run (vals : list JS.value) (st : State) : State :=
  fold_left (fun s val => fireChange val s) vals st.

(** The plugin lists that both previews of the page are given. *)
Definition mathOptions : PreviewOptions :=
  {| remarkPlugins := [remarkMath]; rehypePlugins := [rehypeKatex] |}.

End MarkdownEditor.

(** ** next.config.js *)

Module NextConfig.

(** The options object given to [require("next-pwa")]. *)
Record PWAOptions : Type := {
  dest : string;
  register : bool;
  skipWaiting : bool;
  disable : bool
}.

Record ESLintConfig : Type := { ignoreDuringBuilds : bool }.

Record NextConfig : Type := {
  reactStrictMode : bool;
  eslint : ESLintConfig
}.

(** The object literal of the [require("next-pwa")(...)] call, for the
    value of [process.env.NODE_ENV]. *)
Definition pwaOptions (NODE_ENV : JS.value) : PWAOptions := {|
  dest := "public";
  register := true;
  skipWaiting := true;
  disable := JS.strict_eq NODE_ENV (JS.Str "development")
|}.

Definition nextConfig : NextConfig := {|
  reactStrictMode := true;
  eslint := {| ignoreDuringBuilds := true |}
|}.

(** [withPWA] is what next-pwa returns for the options. *)
Definition withPWA {Wrapped : Type}
    (next_pwa : PWAOptions -> NextConfig -> Wrapped) (NODE_ENV : JS.value)
    : NextConfig -> Wrapped :=
  next_pwa (pwaOptions NODE_ENV).

(** [module.exports = withPWA(nextConfig)] *)
Definition module_exports {Wrapped : Type}
    (next_pwa : PWAOptions -> NextConfig -> Wrapped) (NODE_ENV : JS.value)
    : Wrapped :=
  withPWA next_pwa NODE_ENV nextConfig.

End NextConfig.

(** * Properties *)

(** The source text of the initial editor content evaluates to
    [initialValue]. *)
Lemma initialValue_cooked :
  MarkdownEditor.cook MarkdownEditor.initialValueRaw
  = Some MarkdownEditor.initialValue.
Proof. vm_compute. reflexivity. Qed.

(** ** The definitions on concrete inputs *)

Example message_example :
  Signup.message {| Signup.name := "Ada"; Signup.email := "ada@example.org";
                    Signup.password := "secret" |}
  = "تم التسجيل: Ada, ada@example.org".
Proof. reflexivity. Qed.

Example handleSignup_example :
  Signup.handleSignup Signup.initial Browser.SubmitEvent []
  = (Browser.Returned tt, [Browser.PreventDefault; Browser.Alert "تم التسجيل: , "]).
Proof. reflexivity. Qed.

Example includes_examples :
  JS.includes "abcd" "bc" = true /\ JS.includes "abcd" "bd" = false /\
  JS.includes "abcd" "" = true /\ JS.includes "" "a" = false.
Proof. repeat split. Qed.

Example or_examples :
  JS.or JS.Undefined (JS.Str "") = JS.Str "" /\
  JS.or (JS.Str "") (JS.Str "") = JS.Str "" /\
  JS.or (JS.Str "# title") (JS.Str "") = JS.Str "# title".
Proof. repeat split. Qed.

Example run_example :
  MarkdownEditor.run [JS.Str "a"; JS.Undefined; JS.Str "$x$"] MarkdownEditor.initial
  = {| MarkdownEditor.value := JS.Str "$x$" |} /\
  MarkdownEditor.run [JS.Str "a"; JS.Undefined] MarkdownEditor.initial
  = {| MarkdownEditor.value := JS.Str "" |}.
Proof. split; reflexivity. Qed.

Example disable_examples :
  NextConfig.disable (NextConfig.pwaOptions (JS.Str "development")) = true /\
  NextConfig.disable (NextConfig.pwaOptions (JS.Str "production")) = false /\
  NextConfig.disable (NextConfig.pwaOptions JS.Undefined) = false.
Proof. repeat split. Qed.

(** ** Strings *)

Section StringFacts.

Lemma append_nil_r (s : string) : s ++ "" = s.
Proof. induction s as [|c s IH]; simpl; [|rewrite IH]; reflexivity. Qed.

Lemma append_assoc (s t u : string) : (s ++ t) ++ u = s ++ t ++ u.
Proof. induction s as [|c s IH]; simpl; [|rewrite IH]; reflexivity. Qed.

Lemma startsWith_app (sub post : string) :
  JS.startsWith (sub ++ post) sub = true.
Proof.
  induction sub as [|c sub IH]; simpl.
  - reflexivity.
  - rewrite Ascii.eqb_refl, IH. reflexivity.
Qed.

Lemma startsWith_includes (s sub : string) :
  JS.startsWith s sub = true -> JS.includes s sub = true.
Proof.
  intros H.
  destruct s as [|c s];
    [change (JS.startsWith "" sub || false = true)
    |change (JS.startsWith (String c s) sub || JS.includes s sub = true)];
    rewrite H; reflexivity.
Qed.

Lemma includes_app (pre sub post : string) :
  JS.includes (pre ++ sub ++ post) sub = true.
Proof.
  induction pre as [|c pre IH].
  - apply startsWith_includes. exact (startsWith_app sub post).
  - change (String c pre ++ sub ++ post) with (String c (pre ++ sub ++ post)).
    simpl. rewrite IH. apply orb_true_r.
Qed.

Lemma startsWith_inv (s sub : string) :
  JS.startsWith s sub = true -> exists post, s = sub ++ post.
Proof.
  revert s; induction sub as [|c sub IH]; intros s H; simpl in *.
  - exists s. reflexivity.
  - destruct s as [|d s]; [discriminate|].
    apply andb_prop in H as [Hc Hs].
    apply Ascii.eqb_eq in Hc. subst d.
    destruct (IH _ Hs) as [post ->]. exists post. reflexivity.
Qed.

(** [includes] decides the substring relation. *)
Lemma includes_spec (s sub : string) :
  JS.includes s sub = true <-> exists pre post, s = pre ++ sub ++ post.
Proof.
  split.
  - induction s as [|c s IH]; simpl; intros H.
    + rewrite orb_false_r in H. apply startsWith_inv in H as [post ->].
      exists "", post. reflexivity.
    + apply orb_prop in H as [H|H].
      * apply startsWith_inv in H as [post ->]. exists "", post. reflexivity.
      * destruct (IH H) as (pre & post & ->).
        exists (String c pre), post. reflexivity.
  - intros (pre & post & ->). apply includes_app.
Qed.

End StringFacts.

(** ** The browser trace *)

Section TraceFacts.
Import Browser.
Local Open Scope list_scope.

Lemma alerts_app (t u : trace) : alerts (t ++ u) = alerts t ++ alerts u.
Proof.
  induction t as [|[|m] t IH]; simpl; [reflexivity|exact IH|].
  rewrite IH. reflexivity.
Qed.

Lemma defaultPrevented_app (t u : trace) :
  defaultPrevented (t ++ u) = defaultPrevented t || defaultPrevented u.
Proof. apply existsb_app. Qed.

End TraceFacts.

(** ** The signup page *)

Section SignupFacts.
Import Browser Signup.
Local Open Scope list_scope.

(** The handler runs to completion and appends exactly its two effects. *)
Lemma handleSignup_run (st : State) (e : FormEvent) (t : trace) :
  handleSignup st e t = (Returned tt, t ++ [PreventDefault; Alert (message st)]).
Proof.
  unfold handleSignup, bind, preventDefault, alert, emit.
  rewrite <- app_assoc. reflexivity.
Qed.

(** The form of the page submits to [handleSignup] of the current cells. *)
Lemma fireSubmit_handleSignup (st : State) (e : FormEvent) (t : trace) :
  fireSubmit st e t = handleSignup st e t.
Proof. reflexivity. Qed.

Lemma message_includes_name (st : State) :
  JS.includes (message st) (name st) = true.
Proof. unfold message. apply includes_app. Qed.

Lemma message_includes_email (st : State) :
  JS.includes (message st) (email st) = true.
Proof.
  unfold message.
  rewrite <- (append_nil_r (email st)) at 1.
  rewrite <- !append_assoc, append_assoc.
  apply includes_app.
Qed.

(** C1: with the three fields populated, [handleSignup] calls
    [preventDefault] on the event and shows one alert, whose text contains
    the entered name and the entered email. *)
Theorem handleSignup_populated (st : State) (e : FormEvent) (t : trace) :
  name st <> "" -> email st <> "" -> password st <> "" ->
  exists msg t',
    handleSignup st e t = (Returned tt, t') /\
    defaultPrevented t' = true /\
    alerts t' = alerts t ++ [msg] /\
    JS.includes msg (name st) = true /\
    JS.includes msg (email st) = true.
Proof.
  intros _ _ _.
  exists (message st), (t ++ [PreventDefault; Alert (message st)]).
  split; [apply handleSignup_run|].
  split; [rewrite defaultPrevented_app; apply orb_true_r|].
  split; [rewrite alerts_app; reflexivity|].
  split; [apply message_includes_name | apply message_includes_email].
Qed.

(** C2: [handleSignup] is total and never throws: for all cells, event and
    prior trace it returns, and all it does is append the [preventDefault]
    call and the alert to the trace. *)
Theorem handleSignup_total (st : State) (e : FormEvent) (t : trace) :
  exists t',
    handleSignup st e t = (Returned tt, t') /\
    t' = t ++ [PreventDefault; Alert (message st)] /\
    (forall exn u, handleSignup st e t <> (Threw exn, u)).
Proof.
  exists (t ++ [PreventDefault; Alert (message st)]).
  rewrite handleSignup_run. repeat split. intros exn u H. discriminate H.
Qed.

(** C3: firing the change event of one of the three inputs with a string
    stores that string in the field's cell, and the input shows it on the
    next render. *)
Theorem fireChange_sets_field (f : Field) (v : string) (st : State) :
  cell f (fireChange f v st) = v /\
  option_map value (findInput f (SignupPage (fireChange f v st))) = Some v.
Proof. destruct f; split; reflexivity. Qed.

(** C4: firing the change event of one field leaves the cells, and the
    displayed values, of the other two fields as they were. *)
Theorem fireChange_frame (f g : Field) (v : string) (st : State) :
  f <> g ->
  cell g (fireChange f v st) = cell g st /\
  option_map value (findInput g (SignupPage (fireChange f v st)))
  = option_map value (findInput g (SignupPage st)).
Proof.
  intros Hfg. destruct f, g; try (exfalso; apply Hfg; reflexivity);
    split; reflexivity.
Qed.

(** C8: the alert does not depend on the password: two states with the
    same name and email make the handler behave identically. *)
Theorem handleSignup_password_independent (st1 st2 : State) :
  name st1 = name st2 -> email st1 = email st2 ->
  message st1 = message st2 /\
  forall e t, handleSignup st1 e t = handleSignup st2 e t.
Proof.
  intros Hn He.
  assert (Hm : message st1 = message st2).
  { unfold message. rewrite Hn, He. reflexivity. }
  split; [exact Hm|].
  intros e t. rewrite !handleSignup_run, Hm. reflexivity.
Qed.

(** C10: the handler checks nothing: in every state, the empty fields
    included, submitting calls [preventDefault] and shows the alert; the
    only demand that the fields be filled is the [required] attribute
    that each of the three inputs carries. *)
Theorem handleSignup_unconditional (st : State) (e : FormEvent) (t : trace) :
  (let t' := snd (fireSubmit st e t) in
   fst (fireSubmit st e t) = Returned tt /\
   defaultPrevented t' = true /\
   alerts t' = alerts t ++ [message st]) /\
  map required (inputs (SignupPage st)) = [true; true; true] /\
  snd (handleSignup initial e []) = [PreventDefault; Alert "تم التسجيل: , "].
Proof.
  rewrite fireSubmit_handleSignup, handleSignup_run. simpl fst. simpl snd.
  split; [|split; reflexivity].
  split; [reflexivity|].
  split; [rewrite defaultPrevented_app; apply orb_true_r|].
  rewrite alerts_app. reflexivity.
Qed.

End SignupFacts.

Lemma handleSignup_populated_witness :
  let st := {| Signup.name := "Ada"; Signup.email := "ada@example.org";
               Signup.password := "secret" |} in
  Signup.name st <> "" /\ Signup.email st <> "" /\ Signup.password st <> "" /\
  exists msg t',
    Signup.handleSignup st Browser.SubmitEvent [] = (Browser.Returned tt, t') /\
    Browser.defaultPrevented t' = true /\
    Browser.alerts t' = [msg] /\
    JS.includes msg "Ada" = true /\
    JS.includes msg "ada@example.org" = true.
Proof.
  intros st.
  split; [discriminate|]. split; [discriminate|]. split; [discriminate|].
  apply (handleSignup_populated st Browser.SubmitEvent []); discriminate.
Defined.

Lemma fireChange_frame_witness :
  Signup.NameField <> Signup.EmailField /\
  Signup.cell Signup.EmailField
    (Signup.fireChange Signup.NameField "Ada"
       {| Signup.name := ""; Signup.email := "ada@example.org";
          Signup.password := "secret" |})
  = "ada@example.org".
Proof.
  split; [discriminate|].
  apply (fireChange_frame Signup.NameField Signup.EmailField "Ada"
           {| Signup.name := ""; Signup.email := "ada@example.org";
              Signup.password := "secret" |}).
  discriminate.
Defined.

Lemma handleSignup_password_independent_witness :
  let st1 := {| Signup.name := "Ada"; Signup.email := "ada@example.org";
                Signup.password := "secret" |} in
  let st2 := {| Signup.name := "Ada"; Signup.email := "ada@example.org";
                Signup.password := "" |} in
  Signup.password st1 <> Signup.password st2 /\
  Signup.message st1 = Signup.message st2.
Proof.
  intros st1 st2. split; [discriminate|].
  apply (handleSignup_password_independent st1 st2); reflexivity.
Defined.

(** ** The markdown editor page *)

Section MarkdownEditorFacts.
Import MarkdownEditor.
Local Open Scope list_scope.

Lemma or_string (s : string) : JS.or (JS.Str s) (JS.Str "") = JS.Str s.
Proof. destruct s; reflexivity. Qed.

Lemma or_is_string (v : JS.value) : JS.is_string (JS.or v (JS.Str "")) = true.
Proof. destruct v as [|[|c s]]; reflexivity. Qed.

(** One change event: the cell becomes [val || ""], whatever it was. *)
Lemma fireChange_value (val : JS.value) (st : State) :
  fireChange val st = {| value := JS.or val (JS.Str "") |}.
Proof. reflexivity. Qed.

Lemma run_snoc (vals : list JS.value) (val : JS.value) (st : State) :
  run (vals ++ [val]) st = fireChange val (run vals st).
Proof. unfold run. rewrite fold_left_app. reflexivity. Qed.


(** C5: after any sequence of change events that ends with the user
    typing the string [val], the value cell is [val] and the editor
    displays [val]. *)
Theorem value_is_last_typed (vals : list JS.value) (val : string) (st : State) :
  value (run (vals ++ [JS.Str val]) st) = JS.Str val /\
  map editorValue (editors (MarkdownEditorTestPage (run (vals ++ [JS.Str val]) st)))
  = [JS.Str val].
Proof.
  rewrite run_snoc, fireChange_value. simpl. rewrite or_string.
  split; reflexivity.
Qed.

(** C9: whatever the change events carry, [undefined] included, the value
    cell holds a string; a change event without a value stores the empty
    string. *)
Theorem value_always_string (vals : list JS.value) :
  JS.is_string (value (run vals initial)) = true /\
  value (fireChange JS.Undefined (run vals initial)) = JS.Str "".
Proof.
  split; [|reflexivity].
  destruct vals as [|v vals _] using rev_ind.
  - reflexivity.
  - rewrite run_snoc, fireChange_value. apply or_is_string.
Qed.

(** *** The previews

    How markdown becomes HTML is decided by @uiw/react-md-editor and the
    unified plugins, outside this repository.  The page's part is what it
    hands to them; the statement below holds for every function [render]
    taken for the library's renderer and says nothing about its output. *)


End MarkdownEditorFacts.

(** ** The build configuration *)

Section NextConfigFacts.
Import NextConfig.

Lemma strict_eq_str (v : JS.value) (s : string) :
  JS.strict_eq v (JS.Str s) = true <-> v = JS.Str s.
Proof.
  destruct v as [|x]; simpl.
  - split; discriminate.
  - rewrite String.eqb_eq. split; [intros ->; reflexivity|].
    intros H. injection H as ->. reflexivity.
Qed.

(** C7: the options given to next-pwa have [dest] "public", [register]
    and [skipWaiting] on, and [disable] on exactly when [NODE_ENV] is
    "development"; these are the options the exported configuration is
    wrapped with. *)
Theorem pwaOptions_spec (NODE_ENV : JS.value) :
  dest (pwaOptions NODE_ENV) = "public" /\
  register (pwaOptions NODE_ENV) = true /\
  skipWaiting (pwaOptions NODE_ENV) = true /\
  (disable (pwaOptions NODE_ENV) = true <-> NODE_ENV = JS.Str "development") /\
  forall (Wrapped : Type) (next_pwa : PWAOptions -> NextConfig -> Wrapped),
    module_exports next_pwa NODE_ENV = next_pwa (pwaOptions NODE_ENV) nextConfig.
Proof.
  repeat split; try reflexivity; apply strict_eq_str.
Qed.

End NextConfigFacts.

(** * Further properties of the code *)

(** ** Strings, continued *)

Section MoreStringFacts.

Lemma append_cancel_l (s a b : string) : s ++ a = s ++ b -> a = b.
Proof.
  induction s as [|c s IH]; simpl; intros H; [exact H|].
  injection H as H. exact (IH H).
Qed.

Lemma append_neq_self (a b : string) : b <> "" -> a ++ b <> a.
Proof.
  intros Hb. induction a as [|c a IH]; simpl; intros H.
  - exact (Hb H).
  - injection H as H. exact (IH H).
Qed.

Lemma includes_cons_false (c : ascii) (s sub : string) :
  JS.includes (String c s) sub = false ->
  JS.startsWith (String c s) sub = false /\ JS.includes s sub = false.
Proof.
  change (JS.includes (String c s) sub)
    with (JS.startsWith (String c s) sub || JS.includes s sub).
  apply orb_false_elim.
Qed.

(** In two texts [n ++ ", " ++ e] that are equal, names without a comma
    are equal, and so are the rests. *)
Lemma comma_split (n1 n2 e1 e2 : string) :
  JS.includes n1 "," = false -> JS.includes n2 "," = false ->
  n1 ++ ", " ++ e1 = n2 ++ ", " ++ e2 ->
  n1 = n2 /\ e1 = e2.
Proof.
  revert n2. induction n1 as [|c n1 IH]; intros [|d n2] H1 H2 H; simpl in H.
  - injection H as H. split; [reflexivity|exact H].
  - injection H as Hd _. subst d.
    apply includes_cons_false in H2 as [H2 _]. discriminate H2.
  - injection H as Hc _. subst c.
    apply includes_cons_false in H1 as [H1 _]. discriminate H1.
  - injection H as Hc H. subst d.
    apply includes_cons_false in H1 as [_ H1].
    apply includes_cons_false in H2 as [_ H2].
    destruct (IH n2 H1 H2 H) as [-> ->]. split; reflexivity.
Qed.

End MoreStringFacts.

(** ** The signup page: sequences of events *)

Section SignupSessions.
Import Browser Signup.
Local Open Scope list_scope.

Lemma cell_fireChange (f g : Field) (v : string) (st : State) :
  cell f (fireChange g v st) = if Field_eqb g f then v else cell f st.
Proof. destruct g, f; reflexivity. Qed.

Lemma session_snoc (evs : list UserEvent) (ev : UserEvent) (s : State * trace) :
  session (evs ++ [ev]) s = step ev (session evs s).
Proof. unfold session. rewrite fold_left_app. reflexivity. Qed.

(** X1: typing into two different fields gives the same cells in either
    order. *)
Theorem fireChange_commute (f g : Field) (v w : string) (st : State) :
  f <> g ->
  fireChange f v (fireChange g w st) = fireChange g w (fireChange f v st).
Proof.
  intros Hfg. destruct f, g; try (exfalso; apply Hfg; reflexivity); reflexivity.
Qed.

(** X2: after any sequence of change events and submits, each field's cell
    holds the string typed last into that field, or what it held before
    when nothing was typed into it; submits change no cell. *)
Theorem session_cells (f : Field) (evs : list UserEvent) (st : State) (t : trace) :
  cell f (fst (session evs (st, t))) = lastTyped f evs (cell f st).
Proof.
  revert st t. induction evs as [|[g v|e] evs IH]; intros st t.
  - reflexivity.
  - change (session (Typed g v :: evs) (st, t))
      with (session evs (fireChange g v st, t)).
    rewrite IH, cell_fireChange. reflexivity.
  - change (session (Submitted e :: evs) (st, t))
      with (session evs (st, snd (fireSubmit st e t))).
    rewrite IH. reflexivity.
Qed.

(** X3: during a session the browser shows one alert for each submit and
    none for typing. *)
Theorem session_alert_count (evs : list UserEvent) (st : State) (t : trace) :
  length (alerts (snd (session evs (st, t)))) = length (alerts t) + submits evs.
Proof.
  revert st t. induction evs as [|[g v|e] evs IH]; intros st t.
  - simpl. rewrite Nat.add_0_r. reflexivity.
  - change (session (Typed g v :: evs) (st, t))
      with (session evs (fireChange g v st, t)).
    rewrite IH. reflexivity.
  - change (session (Submitted e :: evs) (st, t))
      with (session evs (st, snd (fireSubmit st e t))).
    rewrite IH, fireSubmit_handleSignup, handleSignup_run. simpl snd.
    rewrite alerts_app, length_app. simpl. rewrite <- Nat.add_assoc. reflexivity.
Qed.

(** X4: a submit at the end of a session returns, calls [preventDefault]
    and adds one alert, made of the name and the email typed last before
    it (or the ones held at the start). *)
Theorem session_submit_alert (evs : list UserEvent) (e : FormEvent)
    (st : State) (t : trace) :
  let before := session evs (st, t) in
  let after := session (evs ++ [Submitted e]) (st, t) in
  fst after = fst before /\
  snd after
  = snd before ++
    [PreventDefault;
     Alert ("تم التسجيل: " ++ lastTyped NameField evs (name st) ++ ", "
            ++ lastTyped EmailField evs (email st))%string].
Proof.
  intros before after. unfold after. rewrite session_snoc. fold before.
  split; [reflexivity|].
  change (snd (step (Submitted e) before))
    with (snd (fireSubmit (fst before) e (snd before))).
  rewrite fireSubmit_handleSignup, handleSignup_run. simpl snd.
  unfold message, before.
  pose proof (session_cells NameField evs st t) as Hn.
  pose proof (session_cells EmailField evs st t) as He.
  unfold cell in Hn, He. rewrite <- Hn, <- He. reflexivity.
Qed.

(** X6: the inputs are controlled: for every input of the rendered page,
    a change event that carries the value the input shows leaves the
    cells as they are. *)
Theorem onChange_shown_value (st : State) (p : InputProps) :
  In p (inputs (SignupPage st)) ->
  reduce st (onChange p {| target_value := value p |}) = st.
Proof.
  intros H. simpl in H.
  destruct H as [<-|[<-|[<-|[]]]]; destruct st; reflexivity.
Qed.

(** X7: the alert text does not tell where the name ends: a name that
    contains the separator and another name give the same alert. *)
Theorem message_ambiguous (a b c p q : string) :
  let st1 := {| name := a ++ ", " ++ b; email := c; password := p |} in
  let st2 := {| name := a; email := b ++ ", " ++ c; password := q |} in
  name st1 <> name st2 /\ message st1 = message st2.
Proof.
  split.
  - apply append_neq_self. discriminate.
  - unfold message. simpl name. simpl email.
    rewrite !append_assoc. reflexivity.
Qed.

(** X8: when neither name contains a comma, two states with the same
    alert text have the same name and the same email. *)
Theorem message_injective (st1 st2 : State) :
  JS.includes (name st1) "," = false ->
  JS.includes (name st2) "," = false ->
  message st1 = message st2 ->
  name st1 = name st2 /\ email st1 = email st2.
Proof.
  intros H1 H2 H. unfold message in H.
  apply append_cancel_l in H.
  exact (comma_split _ _ _ _ H1 H2 H).
Qed.

(** X9: what a session shows does not depend on the password: with the
    same name and email at the start, a session and the same session with
    everything typed into the password field blanked leave the same
    browser trace. *)
Theorem session_password_noninterference (evs : list UserEvent)
    (st1 st2 : State) (t : trace) :
  name st1 = name st2 -> email st1 = email st2 ->
  snd (session evs (st1, t)) = snd (session (map erasePassword evs) (st2, t)).
Proof.
  revert st1 st2 t. induction evs as [|[g v|e] evs IH]; intros st1 st2 t Hn He.
  - reflexivity.
  - destruct g;
      [change (session (Typed NameField v :: evs) (st1, t))
         with (session evs (fireChange NameField v st1, t));
       change (session (map erasePassword (Typed NameField v :: evs)) (st2, t))
         with (session (map erasePassword evs) (fireChange NameField v st2, t))
      |change (session (Typed EmailField v :: evs) (st1, t))
         with (session evs (fireChange EmailField v st1, t));
       change (session (map erasePassword (Typed EmailField v :: evs)) (st2, t))
         with (session (map erasePassword evs) (fireChange EmailField v st2, t))
      |change (session (Typed PasswordField v :: evs) (st1, t))
         with (session evs (fireChange PasswordField v st1, t));
       change (session (map erasePassword (Typed PasswordField v :: evs)) (st2, t))
         with (session (map erasePassword evs) (fireChange PasswordField "" st2, t))];
      apply IH; simpl; congruence.
  - change (session (Submitted e :: evs) (st1, t))
      with (session evs (st1, snd (handleSignup st1 e t))).
    change (session (map erasePassword (Submitted e :: evs)) (st2, t))
      with (session (map erasePassword evs) (st2, snd (handleSignup st2 e t))).
    rewrite !handleSignup_run. simpl snd.
    unfold message. rewrite Hn, He. apply IH; assumption.
Qed.

End SignupSessions.

Lemma fireChange_commute_witness :
  Signup.NameField <> Signup.PasswordField /\
  Signup.fireChange Signup.NameField "Ada"
    (Signup.fireChange Signup.PasswordField "secret" Signup.initial)
  = Signup.fireChange Signup.PasswordField "secret"
      (Signup.fireChange Signup.NameField "Ada" Signup.initial).
Proof.
  split; [discriminate|].
  apply (fireChange_commute Signup.NameField Signup.PasswordField
           "Ada" "secret" Signup.initial).
  discriminate.
Defined.

Lemma onChange_shown_value_witness :
  let st := {| Signup.name := "Ada"; Signup.email := "ada@example.org";
               Signup.password := "secret" |} in
  let p := {| Signup.className := "w-full p-2 mb-3 border rounded";
              Signup.type := "email";
              Signup.placeholder := "البريد الإلكتروني";
              Signup.value := "ada@example.org";
              Signup.onChange := fun e => Signup.setEmail (Signup.target_value e);
              Signup.required := true |} in
  In p (Signup.inputs (Signup.SignupPage st)) /\
  Signup.reduce st (Signup.onChange p {| Signup.target_value := Signup.value p |})
  = st.
Proof.
  intros st p.
  split; [right; left; reflexivity|].
  apply (onChange_shown_value st p). right; left; reflexivity.
Defined.

Lemma message_injective_witness :
  let st1 := {| Signup.name := "Ada"; Signup.email := "ada@example.org";
                Signup.password := "secret" |} in
  let st2 := {| Signup.name := "Ada"; Signup.email := "ada@example.org";
                Signup.password := "" |} in
  JS.includes (Signup.name st1) "," = false /\
  Signup.message st1 = Signup.message st2 /\
  Signup.name st1 = Signup.name st2 /\ Signup.email st1 = Signup.email st2.
Proof.
  intros st1 st2.
  split; [reflexivity|]. split; [reflexivity|].
  apply (message_injective st1 st2); reflexivity.
Defined.

Lemma session_password_noninterference_witness :
  let st1 := {| Signup.name := "Ada"; Signup.email := ""; Signup.password := "old" |} in
  let st2 := {| Signup.name := "Ada"; Signup.email := ""; Signup.password := "" |} in
  let evs := [Signup.Typed Signup.PasswordField "secret";
              Signup.Typed Signup.EmailField "ada@example.org";
              Signup.Submitted Browser.SubmitEvent] in
  Signup.name st1 = Signup.name st2 /\ Signup.email st1 = Signup.email st2 /\
  snd (Signup.session evs (st1, []))
  = snd (Signup.session (map Signup.erasePassword evs) (st2, [])).
Proof.
  intros st1 st2 evs.
  split; [reflexivity|]. split; [reflexivity|].
  apply (session_password_noninterference evs st1 st2 []); reflexivity.
Defined.

(** ** The markdown editor page: the initial render and the editor's value *)

Section MarkdownEditorMore.
Import MarkdownEditor.
Local Open Scope list_scope.

Lemma run_initial_string (vals : list JS.value) :
  exists s, value (run vals initial) = JS.Str s.
Proof.
  destruct vals as [|v vals _] using rev_ind.
  - exists initialValue. reflexivity.
  - rewrite run_snoc, fireChange_value. simpl value.
    destruct v as [|[|c s]]; eexists; reflexivity.
Qed.

(** X10: in every state reached from the initial one, calling the
    editor's [onChange] with the [value] prop the page hands to the editor
    leaves the cell as it is: [val || ""] changes none of the strings the
    cell can hold. *)
Theorem editor_shown_value (vals : list JS.value) (p : MDEditorProps) :
  In p (editors (MarkdownEditorTestPage (run vals initial))) ->
  reduce (run vals initial) (onChange p (editorValue p)) = run vals initial.
Proof.
  intros H. destruct (run_initial_string vals) as [s Hs].
  destruct (run vals initial) as [v]. simpl in Hs. subst v.
  simpl in H. destruct H as [<-|[]]. simpl.
  rewrite or_string. reflexivity.
Qed.


End MarkdownEditorMore.

Lemma editor_shown_value_witness :
  let st := MarkdownEditor.run [JS.Undefined; JS.Str "$x$"] MarkdownEditor.initial in
  let p := {| MarkdownEditor.editorValue := JS.Str "$x$";
              MarkdownEditor.onChange :=
                fun val => MarkdownEditor.setValue (JS.or val (JS.Str ""));
              MarkdownEditor.height := 500;
              MarkdownEditor.previewOptions := MarkdownEditor.mathOptions |} in
  In p (MarkdownEditor.editors (MarkdownEditor.MarkdownEditorTestPage st)) /\
  MarkdownEditor.reduce st (MarkdownEditor.onChange p (MarkdownEditor.editorValue p))
  = st.
Proof.
  intros st p.
  split; [left; reflexivity|].
  apply (editor_shown_value [JS.Undefined; JS.Str "$x$"] p). left; reflexivity.
Defined.
